(** * Faster-Whisper local server: a shallow embedding of
    [faster_whisper_server.py] and the properties of its two endpoints.

    The script is glue between a web framework (FastAPI) and a
    speech-recognition library (faster-whisper).  Both are third-party code:
    the library is an interface ([FasterWhisper]) over which every statement
    is quantified, and the framework is modelled only as far as the script
    relies on it (route registration, routing by method and path, binding of
    the [file] parameter, JSON encoding of a handler's return value). *)

From Stdlib Require Import List String Ascii ZArith NArith Bool.
From Stdlib.Strings Require Import Byte.
From Stdlib Require Import Decimal Lia.
Import ListNotations.
Open Scope list_scope.

Set Implicit Arguments.
Set Warnings "-register-all".

(** ** Python values *)

(** A Python [str] is a sequence of Unicode code points. *)
Definition codepoint := N.
Definition pystr := list codepoint.

(** ASCII literals of the source. *)
Definition lit (s : string) : pystr :=
  map N_of_ascii (list_ascii_of_string s).

Fixpoint str_eqb (a b : pystr) : bool :=
  match a, b with
  | [], [] => true
  | x :: a', y :: b' => N.eqb x y && str_eqb a' b'
  | _, _ => false
  end.

(** [sep.join(parts)] *)
Fixpoint join (sep : pystr) (parts : list pystr) : pystr :=
  match parts with
  | [] => []
  | [p] => p
  | p :: rest => p ++ sep ++ join sep rest
  end.

(** [s * n] for a string [s] *)
Fixpoint str_mul (s : pystr) (n : nat) : pystr :=
  match n with
  | O => []
  | S n' => s ++ str_mul s n'
  end.

(** [s[:n]] for [n >= 0] *)
Definition slice_to (n : nat) (s : pystr) : pystr := firstn n s.

(** Decimal rendering of a non-negative [int], as [str(n)] and [f"{n}"] do. *)
Fixpoint uint_digits (d : Decimal.uint) : pystr :=
  match d with
  | Decimal.Nil => []
  | Decimal.D0 d' => 48%N :: uint_digits d'
  | Decimal.D1 d' => 49%N :: uint_digits d'
  | Decimal.D2 d' => 50%N :: uint_digits d'
  | Decimal.D3 d' => 51%N :: uint_digits d'
  | Decimal.D4 d' => 52%N :: uint_digits d'
  | Decimal.D5 d' => 53%N :: uint_digits d'
  | Decimal.D6 d' => 54%N :: uint_digits d'
  | Decimal.D7 d' => 55%N :: uint_digits d'
  | Decimal.D8 d' => 56%N :: uint_digits d'
  | Decimal.D9 d' => 57%N :: uint_digits d'
  end.

Definition str_of_nat (n : nat) : pystr := uint_digits (Nat.to_uint n).

(** [bytes] *)
Definition bytes := list byte.

(** [io.BytesIO(initial_bytes)]: an in-memory binary stream positioned at 0. *)
Record BytesIO := { buffer : bytes; position : nat }.
Definition io_BytesIO (initial_bytes : bytes) : BytesIO :=
  {| buffer := initial_bytes; position := 0 |}.

(** The values the two handlers return: [str], [int], [dict] with string
    keys (insertion order kept) and [tuple]. *)
Inductive PyVal :=
| PyStr (s : pystr)
| PyInt (n : Z)
| PyDict (items : list (pystr * PyVal))
| PyTuple (elts : list PyVal).

(** A raised exception: whether it is an instance of [Exception] (as
    opposed to deriving from [BaseException] only, like [KeyboardInterrupt],
    [SystemExit] or [asyncio.CancelledError]) and what [str(e)] gives. *)
Record PyExc := { is_Exception : bool; exc_str : pystr }.

Inductive result (A : Type) :=
| Ok (a : A)
| Raised (e : PyExc).
Arguments Ok {A} a.
Arguments Raised {A} e.

(** ** State and exception monad

    A computation runs on a state [S]; it returns a value or raises, and in
    both cases leaves a state behind (what was printed before a [raise]
    stays printed). *)
Definition M (S A : Type) : Type := S -> result A * S.

Definition ret {S A} (a : A) : M S A := fun s => (Ok a, s).
Definition raise {S A} (e : PyExc) : M S A := fun s => (Raised e, s).
Definition bind {S A B} (m : M S A) (k : A -> M S B) : M S B :=
  fun s => match m s with
           | (Ok a, s') => k a s'
           | (Raised e, s') => (Raised e, s')
           end.
Definition gets {S A} (f : S -> A) : M S A := fun s => (Ok (f s), s).
Definition modify {S} (f : S -> S) : M S unit := fun s => (Ok tt, f s).

(** [try: body  except Exception as e: handler(e)].  An exception that is
    not an instance of [Exception] is not caught. *)
Definition try_except_Exception {S A} (body : M S A) (handler : PyExc -> M S A)
  : M S A :=
  fun s => match body s with
           | (Ok a, s') => (Ok a, s')
           | (Raised e, s') =>
               if is_Exception e then handler e s' else (Raised e, s')
           end.

Declare Scope py_scope.
Delimit Scope py_scope with py.
Notation "x <- m ;; k" := (bind m (fun x => k))
  (at level 61, m at next level, right associativity) : py_scope.
Notation "m ;;; k" := (bind m (fun _ => k))
  (at level 61, right associativity) : py_scope.
Notation "' pat <- m ;; k" := (bind m (fun x => match x with pat => k end))
  (at level 61, pat pattern, m at next level, right associativity) : py_scope.
Open Scope py_scope.

(** ** Generators

    [model.transcribe] returns a generator of segments.  Consuming it yields
    segments one by one and then stops, or raises part-way.  (A generator
    that never stops would keep the handler from returning; the library's
    generator ends with the audio.) *)
Inductive Generator (A : Type) :=
| GenStop
| GenYield (a : A) (rest : Generator A)
| GenRaise (e : PyExc).
Arguments GenStop {A}.
Arguments GenYield {A} a rest.
Arguments GenRaise {A} e.

Fixpoint gen_of_list {A} (l : list A) : Generator A :=
  match l with
  | [] => GenStop
  | a :: l' => GenYield a (gen_of_list l')
  end.

(** [[f(x) for x in g]] *)
Fixpoint list_comprehension {A B} (f : A -> B) (g : Generator A)
  : result (list B) :=
  match g with
  | GenStop => Ok []
  | GenYield a rest =>
      match list_comprehension f rest with
      | Ok l => Ok (f a :: l)
      | Raised e => Raised e
      end
  | GenRaise e => Raised e
  end.

(** ** The web framework, as far as the script uses it *)

(** An uploaded file as the framework hands it to a handler.  [read_failure]
    is the exception, if any, that reading it raises (an I/O error on the
    spooled file, a cancellation while awaiting). *)
Record UploadFile := {
  filename : pystr;
  content_type : pystr;
  contents : bytes;
  read_failure : option PyExc
}.

(** [UploadFile.read(size=-1)]: the whole content for a negative [size],
    at most [size] bytes otherwise. *)
Definition UploadFile_read (f : UploadFile) (size : Z) : result bytes :=
  match read_failure f with
  | Some e => Raised e
  | None =>
      Ok (if (size <? 0)%Z then contents f
          else firstn (Z.to_nat size) (contents f))
  end.

(** An HTTP request: method, path, the upload the framework binds to the
    handler parameter [file] (if the multipart body has one) and the other
    form fields of the body. *)
Record Request := {
  method : pystr;
  path : pystr;
  form_file : option UploadFile;
  form_fields : list (pystr * pystr)
}.

Inductive JSON :=
| JString (s : pystr)
| JNumber (n : Z)
| JObject (members : list (pystr * JSON))
| JArray (elts : list JSON).

(** The framework's encoding of a handler's return value: a [dict] becomes
    an object, a [tuple] an array. *)
Fixpoint jsonable_encoder (v : PyVal) : JSON :=
  match v with
  | PyStr s => JString s
  | PyInt n => JNumber n
  | PyDict items =>
      JObject (map (fun kv => match kv with
                              | (k, x) => (k, jsonable_encoder x)
                              end) items)
  | PyTuple elts => JArray (map jsonable_encoder elts)
  end.

(** Member [key] of a JSON object. *)
Fixpoint assoc_get {A} (key : pystr) (l : list (pystr * A)) : option A :=
  match l with
  | [] => None
  | (k, v) :: l' => if str_eqb k key then Some v else assoc_get key l'
  end.

Definition json_member (key : pystr) (j : JSON) : option JSON :=
  match j with
  | JObject members => assoc_get key members
  | _ => None
  end.

Record Response := { status_code : Z; body : JSON }.

(** A handler registered without [status_code=] or [response_class=]
    answers 200 with the JSON encoding of what it returns. *)
Definition json_response (v : PyVal) : Response :=
  {| status_code := 200; body := jsonable_encoder v |}.

(** The functions a route can lead to: the two handlers of the script, or
    an endpoint the framework installs by itself. *)
Inductive Endpoint :=
| ep_framework (name : pystr)
| ep_health
| ep_transcribe_audio.

Record Route := {
  route_method : pystr;
  route_path : pystr;
  endpoint : Endpoint
}.

(** Keyword arguments of [CORSMiddleware]. *)
Record CORSMiddleware := {
  allow_origins : list pystr;
  allow_credentials : bool;
  allow_methods : list pystr;
  allow_headers : list pystr
}.

Record FastAPI := {
  user_middleware : list CORSMiddleware;
  routes : list Route
}.

(** [FastAPI()].  The routes a fresh application already has (the
    framework's own documentation endpoints) are not in the script: they are
    a parameter, (method, path, name) each, and never lead to the script's
    handlers. *)
Definition FastAPI_new (framework_routes : list (pystr * pystr * pystr))
  : FastAPI :=
  {| user_middleware := [];
     routes := map (fun r => match r with
                             | (m, p, name) =>
                                 {| route_method := m; route_path := p;
                                    endpoint := ep_framework name |}
                             end) framework_routes |}.

(** [app.add_middleware(...)] puts the middleware in front. *)
Definition add_middleware (mw : CORSMiddleware) (a : FastAPI) : FastAPI :=
  {| user_middleware := mw :: user_middleware a; routes := routes a |}.

(** [@app.get(path)] and [@app.post(path)] append a route. *)
Definition add_api_route (m p : pystr) (ep : Endpoint) (a : FastAPI) : FastAPI :=
  {| user_middleware := user_middleware a;
     routes := routes a ++
               [{| route_method := m; route_path := p; endpoint := ep |}] |}.
Definition app_get := add_api_route (lit "GET").
Definition app_post := add_api_route (lit "POST").

(** How the router compares a path without parameters with the path of a
    request: the route's path is compiled to a regular expression anchored
    by [^] and [$] and applied with [match], and [$] also matches just
    before a newline that ends the string.  So the request's path is the
    route's path, or the route's path followed by one newline. *)
Definition path_matches (route_path request_path : pystr) : bool :=
  str_eqb route_path request_path
  || str_eqb (route_path ++ [10%N]) request_path.

(** Routing: the first route, in registration order, whose path matches
    that of the request and whose method is that of the request. *)
Definition route_matches (rq : Request) (r : Route) : bool :=
  path_matches (route_path r) (path rq)
  && str_eqb (route_method r) (method rq).

Definition find_route (a : FastAPI) (rq : Request) : option Endpoint :=
  match find (route_matches rq) (routes a) with
  | Some r => Some (endpoint r)
  | None => None
  end.

(** ** The speech-recognition library

    What the script needs of faster-whisper: a model class with a
    constructor and a [transcribe] method.  Both may raise, and both run on
    a state of their own, [lib_state], that the script never sees. *)
Class FasterWhisper := {
  Segment : Type;
  Segment_text : Segment -> pystr;
  TranscriptionInfo : Type;
  WhisperModel : Type;
  lib_state : Type;
  (** [WhisperModel(model_size_or_path, device=..., compute_type=...)] *)
  WhisperModel_init :
    pystr -> pystr -> pystr -> lib_state -> result WhisperModel * lib_state;
  (** [self.transcribe(audio, beam_size=..., language=...)] *)
  WhisperModel_transcribe :
    WhisperModel -> BytesIO -> Z -> pystr -> lib_state ->
    result (Generator Segment * TranscriptionInfo) * lib_state
}.

(** ** The script *)

Section Server.

Context {FW : FasterWhisper}.

(** Routes of a fresh [FastAPI()] application. *)
Variable framework_routes : list (pystr * pystr * pystr).

(** Calls that leave the script, in the order they are made.  The script
    does not keep this list: it is what the statements about "which model"
    and "which bytes" are read from. *)
Inductive Call :=
| Call_WhisperModel (model_size device compute_type : pystr)
| Call_read (file : UploadFile) (size : Z)
| Call_transcribe (self : WhisperModel) (audio : BytesIO)
                  (beam_size : Z) (language : pystr).

(** Everything outside the module's namespace. *)
Record Env := {
  stdout : list pystr;
  lib : lib_state;
  calls : list Call
}.

(** The module's global names. *)
Record Globals := {
  app : FastAPI;
  MODEL_SIZE : pystr;
  model : WhisperModel
}.

Record Server := {
  globals : Globals;
  env : Env
}.

(** [print(s)]: one more entry on standard output.  Writing to standard
    output is taken not to fail: a standard output that is closed, or that
    cannot encode the text, is outside what is modelled. *)
Definition print (s : pystr) : M Env unit :=
  modify (fun e => {| stdout := stdout e ++ [s]; lib := lib e;
                      calls := calls e |}).

Definition log_call (c : Call) (e : Env) (l : lib_state) : Env :=
  {| stdout := stdout e; lib := l; calls := calls e ++ [c] |}.

Definition new_WhisperModel (model_size device compute_type : pystr)
  : M Env WhisperModel :=
  fun e =>
    let (r, l) := WhisperModel_init model_size device compute_type (lib e) in
    (r, log_call (Call_WhisperModel model_size device compute_type) e l).

Definition transcribe (self : WhisperModel) (audio : BytesIO)
           (beam_size : Z) (language : pystr)
  : M Env (Generator Segment * TranscriptionInfo) :=
  fun e =>
    let (r, l) := WhisperModel_transcribe self audio beam_size language (lib e) in
    (r, log_call (Call_transcribe self audio beam_size language) e l).

(** [await file.read()] *)
Definition await_read (file : UploadFile) : M Env bytes :=
  fun e => (UploadFile_read file (-1),
            log_call (Call_read file (-1)) e (lib e)).

Definition from_result {S A} (r : result A) : M S A := fun s => (r, s).

(** A statement of a handler that acts on the outside only. *)
Definition in_env {A} (m : M Env A) : M Server A :=
  fun s => let (r, e) := m (env s) in (r, {| globals := globals s; env := e |}).

(** Top-level statements of the module, lines 13 to 39. *)
Definition module_init : M Env Globals :=
  let app0 := FastAPI_new framework_routes in
  let app1 :=
    add_middleware {| allow_origins := [lit "*"];
                      allow_credentials := true;
                      allow_methods := [lit "*"];
                      allow_headers := [lit "*"] |} app0 in
  let MODEL_SIZE0 := lit "base" in
  print ([128260%N] ++ lit " Cargando modelo Whisper '" ++ MODEL_SIZE0
         ++ lit "'...") ;;;
  print (lit "   (La primera vez puede tardar mientras descarga el modelo)") ;;;
  model0 <- new_WhisperModel MODEL_SIZE0 (lit "cpu") (lit "int8") ;;
  print ([9989%N] ++ lit " Modelo cargado!") ;;;
  let app2 := app_get (lit "/health") ep_health app1 in
  let app3 := app_post (lit "/v1/audio/transcriptions") ep_transcribe_audio app2 in
  ret {| app := app3; MODEL_SIZE := MODEL_SIZE0; model := model0 |}.

(** [async def health()] *)
Definition health : M Server PyVal :=
  size <- gets (fun s => MODEL_SIZE (globals s)) ;;
  ret (PyDict [(lit "status", PyStr (lit "ok")); (lit "model", PyStr size)]).

(** [async def transcribe_audio(file: UploadFile = File(...))] *)
Definition transcribe_audio (file : UploadFile) : M Server PyVal :=
  try_except_Exception
    (audio_bytes <- in_env (await_read file) ;;
     in_env (print ([128229%N] ++ lit " Audio recibido: "
                    ++ str_of_nat (List.length audio_bytes) ++ lit " bytes")) ;;;
     in_env (print ([128260%N] ++ lit " Transcribiendo...")) ;;;
     the_model <- gets (fun s => model (globals s)) ;;
     '(segments, info) <-
       in_env (transcribe the_model (io_BytesIO audio_bytes) 5 (lit "es")) ;;
     texts <- from_result (list_comprehension Segment_text segments) ;;
     let text := join (lit " ") texts in
     in_env (print ([9989%N] ++ lit " Transcripci" ++ [243%N] ++ lit "n: "
                    ++ slice_to 50 text ++ lit "...")) ;;;
     ret (PyDict [(lit "text", PyStr text)]))
    (fun e =>
       in_env (print ([10060%N] ++ lit " Error: " ++ exc_str e)) ;;;
       ret (PyTuple [PyDict [(lit "error", PyStr (exc_str e))]; PyInt 500])).

(** What a request comes to. *)
Inductive Outcome :=
| Replied (r : Response)      (* the handler returned; its value is encoded *)
| Escaped (e : PyExc)         (* the handler let an exception through *)
| ByFramework.                (* answered by the framework, no handler ran *)

Definition run_endpoint (h : M Server PyVal) : Server -> Outcome * Server :=
  fun s => match h s with
           | (Ok v, s') => (Replied (json_response v), s')
           | (Raised e, s') => (Escaped e, s')
           end.

(** One request against the application, as the server calls it (what the
    server writes by itself comes after, in [uvicorn_run]).  [File(...)]
    makes the upload required: without it the framework answers by itself.
    The CORS
    middleware only adds headers to the replies to GET and POST (and answers
    pre-flight OPTIONS requests, which match no route of the script): status
    and body, which is all a [Response] holds here, do not depend on it. *)
Definition handle_request (rq : Request) (s : Server) : Outcome * Server :=
  match find_route (app (globals s)) rq with
  | Some ep_health => run_endpoint health s
  | Some ep_transcribe_audio =>
      match form_file rq with
      | Some file => run_endpoint (transcribe_audio file) s
      | None => (ByFramework, s)
      end
  | Some (ep_framework _) => (ByFramework, s)
  | None => (ByFramework, s)
  end.

(** What the server itself writes on standard output for a request once
    the application has dealt with it.  With its default logging uvicorn
    writes one access-log line there (client, request line, status); the
    text is uvicorn's business and is left as a parameter. *)
Variable access_log : Request -> Outcome -> list pystr.

Definition write_access_log (rq : Request) (o : Outcome) (s : Server)
  : Server :=
  {| globals := globals s;
     env := {| stdout := stdout (env s) ++ access_log rq o;
               lib := lib (env s);
               calls := calls (env s) |} |}.

(** [uvicorn.run(app, ...)]: the requests are handled one after the other,
    each followed by its access log.
    The handlers share nothing but standard output and the library, and a
    handler gives way only at its one [await]; the interleaving of
    simultaneous requests there is not modelled. *)
Fixpoint uvicorn_run (reqs : list Request) (s : Server) : list Outcome * Server :=
  match reqs with
  | [] => ([], s)
  | rq :: reqs' =>
      let (o, s1) := handle_request rq s in
      let (os, s2) := uvicorn_run reqs' (write_access_log rq o s1) in
      (o :: os, s2)
  end.

(** The block under [if __name__ == "__main__":], lines 70 to 85. *)
Definition banner (g : Globals) : M Env unit :=
  print (str_mul (lit "=") 60) ;;;
  print ([128640%N] ++ lit " Servidor Faster-Whisper Local") ;;;
  print (str_mul (lit "=") 60) ;;;
  print ([128221%N] ++ lit " Modelo: " ++ MODEL_SIZE g) ;;;
  print ([127760%N] ++ lit " URL: http://localhost:8000") ;;;
  print ([128225%N] ++ lit " Endpoint: POST /v1/audio/transcriptions") ;;;
  print ([10084%N; 65039%N] ++ lit "  Health check: GET /health") ;;;
  print (str_mul (lit "=") 60) ;;;
  print ([10%N; 128161%N] ++ lit " Para usar desde tu app m" ++ [243%N]
         ++ lit "vil:") ;;;
  print (lit "   1. Encuentra tu IP local (ipconfig en Windows, ifconfig en Mac/Linux)") ;;;
  print (lit "   2. Configura en .env: VITE_FASTER_WHISPER_ENDPOINT=http://TU_IP:8000") ;;;
  print (lit "   3. Aseg" ++ [250%N] ++ lit "rate de que tu m" ++ [243%N]
         ++ lit "vil y PC est" ++ [233%N] ++ lit "n en la misma red WiFi") ;;;
  print ([10%N; 9209%N; 65039%N]
         ++ lit "  Presiona Ctrl+C para detener el servidor" ++ [10%N]).

(** The environment of a process that has just started. *)
Definition fresh (l : lib_state) : Env :=
  {| stdout := []; lib := l; calls := [] |}.

(** The script run as a program and then sent [reqs]: the outcomes and the
    state the server is left in, or the exception that stopped the start. *)
Definition main (reqs : list Request) (l : lib_state)
  : result (list Outcome * Server) :=
  match module_init (fresh l) with
  | (Raised e, _) => Raised e
  | (Ok g, e1) =>
      match banner g e1 with
      | (Raised e, _) => Raised e
      | (Ok _, e2) => Ok (uvicorn_run reqs {| globals := g; env := e2 |})
      end
  end.

(** The states of a server: the module has been loaded in a fresh process
    (by [main] or by an import, which skips the banner), and requests have
    been handled since; in between, the server may have written to standard
    output. *)
Inductive reachable : Server -> Prop :=
| reach_import l g e1 :
    module_init (fresh l) = (Ok g, e1) ->
    reachable {| globals := g; env := e1 |}
| reach_banner s e2 :
    reachable s ->
    banner (globals s) (env s) = (Ok tt, e2) ->
    reachable {| globals := globals s; env := e2 |}
| reach_request s rq :
    reachable s ->
    reachable (snd (handle_request rq s))
| reach_output s out :
    reachable s ->
    reachable {| globals := globals s;
                 env := {| stdout := stdout (env s) ++ out;
                           lib := lib (env s);
                           calls := calls (env s) |} |}.

(** A route of the framework's own already takes this method and path. *)
Definition framework_claims (m p : pystr) : bool :=
  existsb (fun r => str_eqb (route_path r) p && str_eqb (route_method r) m)
          (routes (FastAPI_new framework_routes)).

(** The calls made between two states. *)
Definition new_calls (before after : Server) : list Call :=
  skipn (List.length (calls (env before))) (calls (env after)).

(** The [transcribe] calls of a trace, with their arguments. *)
Fixpoint transcribe_calls (cs : list Call)
  : list (WhisperModel * BytesIO * Z * pystr) :=
  match cs with
  | [] => []
  | Call_transcribe self audio beam_size language :: cs' =>
      (self, audio, beam_size, language) :: transcribe_calls cs'
  | _ :: cs' => transcribe_calls cs'
  end.

(** The model constructions of a trace, with their arguments. *)
Fixpoint model_loads (cs : list Call) : list (pystr * pystr * pystr) :=
  match cs with
  | [] => []
  | Call_WhisperModel size device compute_type :: cs' =>
      (size, device, compute_type) :: model_loads cs'
  | _ :: cs' => model_loads cs'
  end.

(** ** Vocabulary of the statements *)

(** The routes the script registers, in the order of its decorators. *)
Definition script_routes : list Route :=
  [{| route_method := lit "GET"; route_path := lit "/health";
      endpoint := ep_health |};
   {| route_method := lit "POST"; route_path := lit "/v1/audio/transcriptions";
      endpoint := ep_transcribe_audio |}].

Definition script_endpoint (ep : Endpoint) : bool :=
  match ep with
  | ep_framework _ => false
  | ep_health | ep_transcribe_audio => true
  end.

(** What the handler answers when the [try] block raises [e]. *)
Definition error_pair (e : PyExc) : PyVal :=
  PyTuple [PyDict [(lit "error", PyStr (exc_str e))]; PyInt 500].

(** The calls one request adds: none, or the read of the upload followed,
    when the read succeeds, by one [transcribe] on the global [model]. *)
Definition request_calls (rq : Request) (s : Server) : list Call :=
  match find_route (app (globals s)) rq, form_file rq with
  | Some ep_transcribe_audio, Some file =>
      Call_read file (-1)
      :: match UploadFile_read file (-1) with
         | Ok b => [Call_transcribe (model (globals s)) (io_BytesIO b)
                                    5 (lit "es")]
         | Raised _ => []
         end
  | _, _ => []
  end.

(** [rq] is a POST to the transcription path that carries the upload
    [file]. *)
Definition posts_file (rq : Request) (file : UploadFile) : Prop :=
  method rq = lit "POST" /\
  path rq = lit "/v1/audio/transcriptions" /\
  form_file rq = Some file.

(** In state [s], reading [file] succeeds and the [transcribe] call the
    handler makes on its bytes returns a generator that yields exactly
    [segs]. *)
Definition transcribes_to (s : Server) (file : UploadFile)
           (segs : list Segment) : Prop :=
  read_failure file = None /\
  exists info l',
    WhisperModel_transcribe (model (globals s)) (io_BytesIO (contents file))
                            5 (lit "es") (lib (env s))
    = (Ok (gen_of_list segs, info), l').

(** The [try] block of the handler raises [e]: while reading the upload, in
    the call of [transcribe], or while the segments are consumed. *)
Definition try_block_raises (s : Server) (file : UploadFile) (e : PyExc)
  : Prop :=
  UploadFile_read file (-1) = Raised e \/
  (exists b l',
      UploadFile_read file (-1) = Ok b /\
      WhisperModel_transcribe (model (globals s)) (io_BytesIO b)
                              5 (lit "es") (lib (env s)) = (Raised e, l')) \/
  (exists b g info l',
      UploadFile_read file (-1) = Ok b /\
      WhisperModel_transcribe (model (globals s)) (io_BytesIO b)
                              5 (lit "es") (lib (env s)) = (Ok (g, info), l') /\
      list_comprehension Segment_text g = Raised e).

(** The ["text"] member of a reply. *)
Definition text_of (o : Outcome) : option pystr :=
  match o with
  | Replied r =>
      match json_member (lit "text") (body r) with
      | Some (JString t) => Some t
      | _ => None
      end
  | _ => None
  end.

(** What holds of every reachable state: the globals are those the module
    set, and the trace starts with the one construction of the model. *)
Record invariant (s : Server) : Prop := {
  inv_size : MODEL_SIZE (globals s) = lit "base";
  inv_routes : routes (app (globals s))
               = routes (FastAPI_new framework_routes) ++ script_routes;
  inv_first : hd_error (calls (env s))
              = Some (Call_WhisperModel (lit "base") (lit "cpu") (lit "int8"));
  inv_loads : model_loads (calls (env s))
              = [(lit "base", lit "cpu", lit "int8")];
  inv_instance : exists l l',
      WhisperModel_init (lit "base") (lit "cpu") (lit "int8") l
      = (Ok (model (globals s)), l');
  inv_uses : Forall (fun c => fst (fst (fst c)) = model (globals s))
                    (transcribe_calls (calls (env s)))
}.

(** The route with method [m] and path [p] takes [rq]. *)
Definition targets (m p : pystr) (rq : Request) : bool :=
  path_matches p (path rq) && str_eqb m (method rq).

(** [rq] has exactly the method [m] and the path [p]. *)
Definition asks (m p : pystr) (rq : Request) : bool :=
  str_eqb p (path rq) && str_eqb m (method rq).

(** The access log without the lines for the requests that [drop]
    selects. *)
Definition access_log_without (drop : Request -> bool)
  : Request -> Outcome -> list pystr :=
  fun rq o => if drop rq then [] else access_log rq o.

(** What [transcribe] returns does not depend on the state of the library:
    the same model, audio and options give the same segments or the same
    exception whenever they are asked. *)
Definition stateless_results : Prop :=
  forall self audio beam_size language l1 l2,
    fst (WhisperModel_transcribe self audio beam_size language l1)
    = fst (WhisperModel_transcribe self audio beam_size language l2).

(** The requests of [reqs] paired with their outcomes, without the pairs of
    the requests that [drop] selects. *)
Definition outcomes_without (drop : Request -> bool) (reqs : list Request)
           (os : list Outcome) : list Outcome :=
  map snd (filter (fun p => negb (drop (fst p))) (combine reqs os)).

End Server.

Arguments Call_read {FW} file size.
Arguments Call_WhisperModel {FW} model_size device compute_type.

(** ** A scripted library

    An instance of the interface for concrete runs: the constructor and
    [transcribe] do what the script says, the state counts the calls, a
    model is known by its size, a segment is its text. *)
Definition scripted (init_error : option PyExc)
           (out : result (Generator pystr)) : FasterWhisper :=
  {| Segment := pystr;
     Segment_text := fun t => t;
     TranscriptionInfo := unit;
     WhisperModel := pystr;
     lib_state := nat;
     WhisperModel_init := fun size _ _ n =>
       (match init_error with Some e => Raised e | None => Ok size end, S n);
     WhisperModel_transcribe := fun _ _ _ _ n =>
       (match out with
        | Ok g => Ok (g, tt)
        | Raised e => Raised e
        end, S n) |}.

(** The routes a fresh FastAPI application comes with by default; each
    takes GET and HEAD. *)
Definition default_routes : list (pystr * pystr * pystr) :=
  [(lit "GET", lit "/openapi.json", lit "openapi");
   (lit "HEAD", lit "/openapi.json", lit "openapi");
   (lit "GET", lit "/docs", lit "swagger_ui_html");
   (lit "HEAD", lit "/docs", lit "swagger_ui_html");
   (lit "GET", lit "/docs/oauth2-redirect", lit "swagger_ui_redirect");
   (lit "HEAD", lit "/docs/oauth2-redirect", lit "swagger_ui_redirect");
   (lit "GET", lit "/redoc", lit "redoc_html");
   (lit "HEAD", lit "/redoc", lit "redoc_html")].

(** An access log for concrete runs: one line per request, with its method
    and path (uvicorn's own line also names the client, the protocol and
    the status). *)
Definition uvicorn_access (rq : Request) (o : Outcome) : list pystr :=
  [lit "INFO:     " ++ method rq ++ lit " " ++ path rq].

Definition hola_mundo : FasterWhisper :=
  scripted None (Ok (gen_of_list [lit "hola"; lit "mundo"])).

Definition wav (data : bytes) : UploadFile :=
  {| filename := lit "a.wav"; content_type := lit "audio/wav";
     contents := data; read_failure := None |}.

Definition post_transcription (f : option UploadFile)
           (fields : list (pystr * pystr)) : Request :=
  {| method := lit "POST"; path := lit "/v1/audio/transcriptions";
     form_file := f; form_fields := fields |}.

Definition get_health : Request :=
  {| method := lit "GET"; path := lit "/health";
     form_file := None; form_fields := [] |}.

(** [asyncio.CancelledError()]: derives from [BaseException] only, and
    [str] of it is empty. *)
Definition cancelled : PyExc := {| is_Exception := false; exc_str := [] |}.

(** [RuntimeError("boom")] *)
Definition boom : PyExc := {| is_Exception := true; exc_str := lit "boom" |}.

(** An upload whose read is cancelled. *)
Definition interrupted : UploadFile :=
  {| filename := lit "a.wav"; content_type := lit "audio/wav";
     contents := []; read_failure := Some cancelled |}.

(** A library whose generator yields one segment and then raises. *)
Definition hola_boom : FasterWhisper :=
  scripted None (Ok (GenYield (lit "hola") (GenRaise boom))).

(** A library whose model cannot be constructed. *)
Definition no_model : FasterWhisper :=
  scripted (Some boom) (Ok GenStop).

(** A library that returns one segment of 60 code points. *)
Definition la_la : FasterWhisper :=
  scripted None (Ok (gen_of_list [str_mul (lit "la ") 20])).

(** ** Properties *)

Lemma str_eqb_refl (a : pystr) : str_eqb a a = true.
Proof.
  induction a as [|x a IH]; simpl; [reflexivity|].
  now rewrite N.eqb_refl, IH.
Qed.

Lemma str_eqb_eq (a b : pystr) : str_eqb a b = true <-> a = b.
Proof.
  split; [|intros ->; apply str_eqb_refl].
  revert b; induction a as [|x a IH]; intros [|y b]; simpl;
    try discriminate; [reflexivity|].
  intros H. apply andb_true_iff in H as [Hx Hab].
  apply N.eqb_eq in Hx. f_equal; auto.
Qed.

Lemma find_none_existsb {A} (p : A -> bool) (l : list A) :
  existsb p l = false -> find p l = None.
Proof.
  induction l as [|a l IH]; simpl; [reflexivity|].
  destruct (p a); simpl; [discriminate|exact IH].
Qed.

Lemma find_app_none {A} (p : A -> bool) (l1 l2 : list A) :
  find p l1 = None -> find p (l1 ++ l2) = find p l2.
Proof.
  induction l1 as [|a l1 IH]; simpl; [reflexivity|].
  destruct (p a); [discriminate|exact IH].
Qed.

Lemma list_comprehension_of_list {A B} (f : A -> B) (l : list A) :
  list_comprehension f (gen_of_list l) = Ok (map f l).
Proof.
  induction l as [|a l IH]; simpl; [reflexivity|now rewrite IH].
Qed.

Section Properties.

Context {FW : FasterWhisper}.
Variable framework_routes : list (pystr * pystr * pystr).
Variable access_log : Request -> Outcome -> list pystr.

Ltac unfold_monad :=
  unfold print, await_read, transcribe, new_WhisperModel, in_env,
    from_result, log_call, try_except_Exception;
  unfold bind, ret, raise, gets, modify;
  cbn [stdout lib calls globals env].

(** *** Start-up *)

Lemma module_init_inv e0 g e1 :
  module_init framework_routes e0 = (Ok g, e1) ->
  exists l',
    WhisperModel_init (lit "base") (lit "cpu") (lit "int8") (lib e0)
      = (Ok (model g), l') /\
    MODEL_SIZE g = lit "base" /\
    routes (app g) = routes (FastAPI_new framework_routes) ++ script_routes /\
    calls e1 = calls e0
               ++ [Call_WhisperModel (lit "base") (lit "cpu") (lit "int8")] /\
    lib e1 = l'.
Proof.
  unfold module_init. unfold_monad.
  destruct (WhisperModel_init (lit "base") (lit "cpu") (lit "int8") (lib e0))
    as [[m|e] l'] eqn:E; intros H; inversion H; subst; clear H.
  exists l'. repeat split; try reflexivity.
  unfold app_post, app_get, add_api_route; cbn [routes app add_middleware].
  now rewrite <- List.app_assoc.
Qed.

(** *** The handlers *)

Ltac step :=
  match goal with
  | |- context [UploadFile_read ?f ?n] =>
      destruct (UploadFile_read f n) eqn:?
  | |- context [WhisperModel_transcribe ?m ?a ?b ?c ?l] =>
      destruct (WhisperModel_transcribe m a b c l) as [[[? ?]|?] ?] eqn:?
  | |- context [list_comprehension ?f ?g] =>
      destruct (list_comprehension f g) eqn:?
  | |- context [is_Exception ?e] => destruct (is_Exception e) eqn:?
  end; cbn [stdout lib calls globals env fst snd].

Ltac run_handler := unfold transcribe_audio, health; unfold_monad; repeat step.

Lemma health_run s :
  health s
  = (Ok (PyDict [(lit "status", PyStr (lit "ok"));
                 (lit "model", PyStr (MODEL_SIZE (globals s)))]), s).
Proof. reflexivity. Qed.

Lemma transcribe_audio_globals file s :
  globals (snd (transcribe_audio file s)) = globals s.
Proof. run_handler; reflexivity. Qed.

Lemma transcribe_audio_calls file s :
  calls (env (snd (transcribe_audio file s)))
  = calls (env s)
    ++ Call_read file (-1)
       :: match UploadFile_read file (-1) with
          | Ok b => [Call_transcribe (model (globals s)) (io_BytesIO b)
                                     5 (lit "es")]
          | Raised _ => []
          end.
Proof.
  run_handler; rewrite <- ?List.app_assoc; reflexivity.
Qed.

Lemma transcribe_audio_ok file s b g info l' texts :
  UploadFile_read file (-1) = Ok b ->
  WhisperModel_transcribe (model (globals s)) (io_BytesIO b) 5 (lit "es")
                          (lib (env s)) = (Ok (g, info), l') ->
  list_comprehension Segment_text g = Ok texts ->
  fst (transcribe_audio file s)
  = Ok (PyDict [(lit "text", PyStr (join (lit " ") texts))]).
Proof.
  intros Hr Ht Hl. unfold transcribe_audio. unfold_monad.
  rewrite Hr, Ht. cbn [stdout lib calls globals env fst snd].
  rewrite Hl. reflexivity.
Qed.

Lemma transcribe_audio_read_raises file s e :
  UploadFile_read file (-1) = Raised e ->
  fst (transcribe_audio file s)
  = if is_Exception e then Ok (error_pair e) else Raised e.
Proof.
  intros Hr. unfold transcribe_audio. unfold_monad.
  rewrite Hr. destruct (is_Exception e); reflexivity.
Qed.

Lemma transcribe_audio_transcribe_raises file s b e l' :
  UploadFile_read file (-1) = Ok b ->
  WhisperModel_transcribe (model (globals s)) (io_BytesIO b) 5 (lit "es")
                          (lib (env s)) = (Raised e, l') ->
  fst (transcribe_audio file s)
  = if is_Exception e then Ok (error_pair e) else Raised e.
Proof.
  intros Hr Ht. unfold transcribe_audio. unfold_monad.
  rewrite Hr, Ht. destruct (is_Exception e); reflexivity.
Qed.

Lemma transcribe_audio_segments_raise file s b g info l' e :
  UploadFile_read file (-1) = Ok b ->
  WhisperModel_transcribe (model (globals s)) (io_BytesIO b) 5 (lit "es")
                          (lib (env s)) = (Ok (g, info), l') ->
  list_comprehension Segment_text g = Raised e ->
  fst (transcribe_audio file s)
  = if is_Exception e then Ok (error_pair e) else Raised e.
Proof.
  intros Hr Ht Hl. unfold transcribe_audio. unfold_monad.
  rewrite Hr, Ht. cbn [stdout lib calls globals env fst snd].
  rewrite Hl. destruct (is_Exception e); reflexivity.
Qed.

(** *** Requests *)

Lemma run_endpoint_globals (h : M Server PyVal) s :
  globals (snd (h s)) = globals s ->
  globals (snd (run_endpoint h s)) = globals s.
Proof. unfold run_endpoint. destruct (h s) as [[v|e] s']; auto. Qed.

Lemma run_endpoint_env (h : M Server PyVal) s :
  env (snd (run_endpoint h s)) = env (snd (h s)).
Proof. unfold run_endpoint. destruct (h s) as [[v|e] s']; auto. Qed.

Lemma handle_request_globals rq s :
  globals (snd (handle_request rq s)) = globals s.
Proof.
  unfold handle_request.
  destruct (find_route (app (globals s)) rq) as [[name| |]|]; try reflexivity.
  destruct (form_file rq) as [file|]; [|reflexivity].
  apply run_endpoint_globals, transcribe_audio_globals.
Qed.

Lemma uvicorn_run_globals reqs s :
  globals (snd (uvicorn_run access_log reqs s)) = globals s.
Proof.
  revert s; induction reqs as [|rq reqs IH]; intros s; simpl; [reflexivity|].
  destruct (handle_request rq s) as [o s1] eqn:E1.
  destruct (uvicorn_run access_log reqs (write_access_log access_log rq o s1))
    as [os s2] eqn:E2. simpl.
  change s2 with (snd (os, s2)). rewrite <- E2, IH. cbn [write_access_log globals].
  change s1 with (snd (o, s1)). rewrite <- E1. apply handle_request_globals.
Qed.

Lemma model_loads_app cs1 cs2 :
  model_loads (cs1 ++ cs2) = model_loads cs1 ++ model_loads cs2.
Proof.
  induction cs1 as [|c cs1 IH]; simpl; [reflexivity|].
  destruct c; simpl; now rewrite IH.
Qed.

Lemma transcribe_calls_app cs1 cs2 :
  transcribe_calls (cs1 ++ cs2) = transcribe_calls cs1 ++ transcribe_calls cs2.
Proof.
  induction cs1 as [|c cs1 IH]; simpl; [reflexivity|].
  destruct c; simpl; now rewrite IH.
Qed.

Lemma skipn_length_app {A} (l1 l2 : list A) :
  skipn (List.length l1) (l1 ++ l2) = l2.
Proof. induction l1 as [|a l1 IH]; simpl; auto. Qed.

Lemma handle_request_calls rq s :
  calls (env (snd (handle_request rq s)))
  = calls (env s) ++ request_calls rq s.
Proof.
  unfold handle_request, request_calls.
  destruct (find_route (app (globals s)) rq) as [[name| |]|];
    cbn [snd]; rewrite ?List.app_nil_r; try reflexivity.
  destruct (form_file rq) as [file|]; cbn [snd];
    rewrite ?List.app_nil_r; try reflexivity.
  rewrite run_endpoint_env. apply transcribe_audio_calls.
Qed.

Lemma request_calls_loads rq s : model_loads (request_calls rq s) = [].
Proof.
  unfold request_calls.
  destruct (find_route (app (globals s)) rq) as [[name| |]|]; try reflexivity.
  destruct (form_file rq) as [file|]; [|reflexivity].
  destruct (UploadFile_read file (-1)); reflexivity.
Qed.

Lemma request_calls_model rq s :
  Forall (fun c => fst (fst (fst c)) = model (globals s))
         (transcribe_calls (request_calls rq s)).
Proof.
  unfold request_calls.
  destruct (find_route (app (globals s)) rq) as [[name| |]|];
    try apply Forall_nil.
  destruct (form_file rq) as [file|]; [|apply Forall_nil].
  destruct (UploadFile_read file (-1)); simpl; repeat constructor.
Qed.

Lemma banner_env g e :
  lib (snd (banner g e)) = lib e /\ calls (snd (banner g e)) = calls e.
Proof.
  cbv beta iota zeta delta [banner bind print modify snd lib calls].
  split; reflexivity.
Qed.

(** *** Reachable states *)

Lemma main_reachable reqs l os s :
  main framework_routes access_log reqs l = Ok (os, s) ->
  reachable framework_routes s.
Proof.
  unfold main.
  destruct (module_init framework_routes (fresh l)) as [[g|e] e1] eqn:Ei;
    [|discriminate].
  destruct (banner g e1) as [[[]|e] e2] eqn:Eb; [|discriminate].
  intros H; injection H as H.
  assert (R : reachable framework_routes {| globals := g; env := e2 |}).
  { apply (reach_banner (s := {| globals := g; env := e1 |}));
      [eapply reach_import; exact Ei|exact Eb]. }
  clear Ei Eb. revert os s H.
  generalize dependent {| globals := g; env := e2 |}.
  induction reqs as [|rq reqs IH]; intros s0 R os s H; simpl in H.
  - injection H as _ <-. exact R.
  - destruct (handle_request rq s0) as [o s1] eqn:E1.
    destruct (uvicorn_run access_log reqs
                          (write_access_log access_log rq o s1))
      as [os' s2] eqn:E2.
    injection H as _ <-.
    apply (IH (write_access_log access_log rq o s1)) with (os := os');
      [|exact E2].
    apply reach_output.
    change s1 with (snd (o, s1)). rewrite <- E1. now apply reach_request.
Qed.

Lemma hd_error_app {A} (l1 l2 : list A) x :
  hd_error l1 = Some x -> hd_error (l1 ++ l2) = Some x.
Proof. destruct l1; [discriminate|auto]. Qed.

Lemma reachable_invariant s :
  reachable framework_routes s -> invariant framework_routes s.
Proof.
  induction 1 as [l g e1 Hi|s e2 R IH Hb|s rq R IH|s out R IH];
    [| | |destruct IH; constructor; assumption].
  - destruct (module_init_inv _ Hi) as (l' & Hm & Hs & Hr & Hc & _).
    cbn [fresh calls lib] in Hm, Hc. cbn [List.app] in Hc.
    constructor; cbn [globals env]; rewrite ?Hc; auto.
    now exists l, l'.
  - destruct (banner_env (globals s) (env s)) as [_ Hc].
    rewrite Hb in Hc. cbn [snd] in Hc.
    destruct IH. constructor; cbn [globals env]; rewrite ?Hc; auto.
  - destruct IH.
    constructor; rewrite ?handle_request_globals, ?handle_request_calls; auto.
    + now apply hd_error_app.
    + now rewrite model_loads_app, request_calls_loads, List.app_nil_r.
    + rewrite transcribe_calls_app. apply Forall_app. split; [assumption|].
      apply request_calls_model.
Qed.

(** A path that does not end in a newline is matched by the route with
    that very path only. *)
Lemma path_matches_exact (p q : pystr) :
  last q 0%N <> 10%N -> path_matches p q = str_eqb p q.
Proof.
  intros Hl. unfold path_matches.
  destruct (str_eqb (p ++ [10%N]) q) eqn:E; [|apply orb_false_r].
  exfalso. apply Hl. apply str_eqb_eq in E. subst q. apply last_last.
Qed.

Lemma framework_claims_find rq :
  last (path rq) 0%N <> 10%N ->
  framework_claims framework_routes (method rq) (path rq) = false ->
  find (route_matches rq) (routes (FastAPI_new framework_routes)) = None.
Proof.
  intros Hl Hf. apply find_none_existsb. rewrite <- Hf.
  unfold framework_claims.
  induction (routes (FastAPI_new framework_routes)) as [|r l IH];
    [reflexivity|].
  cbn [existsb]. rewrite IH. unfold route_matches.
  now rewrite (path_matches_exact _ _ Hl).
Qed.

(** Routing of the two paths of the script. *)
Lemma find_route_script s rq :
  reachable framework_routes s ->
  last (path rq) 0%N <> 10%N ->
  framework_claims framework_routes (method rq) (path rq) = false ->
  find_route (app (globals s)) rq
  = match find (route_matches rq) script_routes with
    | Some r => Some (endpoint r)
    | None => None
    end.
Proof.
  intros R Hl Hf. unfold find_route.
  rewrite (inv_routes (reachable_invariant R)).
  rewrite find_app_none; [reflexivity|].
  now apply framework_claims_find.
Qed.

Lemma route_health s rq :
  reachable framework_routes s ->
  method rq = lit "GET" -> path rq = lit "/health" ->
  framework_claims framework_routes (lit "GET") (lit "/health") = false ->
  find_route (app (globals s)) rq = Some ep_health.
Proof.
  intros R Hm Hp Hf.
  rewrite find_route_script;
    [|exact R|rewrite Hp; vm_compute; discriminate|now rewrite Hm, Hp].
  unfold script_routes, route_matches. cbn [find route_path route_method].
  rewrite Hm, Hp. reflexivity.
Qed.

Lemma route_transcribe_audio s rq :
  reachable framework_routes s ->
  method rq = lit "POST" -> path rq = lit "/v1/audio/transcriptions" ->
  framework_claims framework_routes
                   (lit "POST") (lit "/v1/audio/transcriptions") = false ->
  find_route (app (globals s)) rq = Some ep_transcribe_audio.
Proof.
  intros R Hm Hp Hf.
  rewrite find_route_script;
    [|exact R|rewrite Hp; vm_compute; discriminate|now rewrite Hm, Hp].
  unfold script_routes, route_matches. cbn [find route_path route_method].
  rewrite Hm, Hp. reflexivity.
Qed.

Lemma uvicorn_run_reachable reqs s :
  reachable framework_routes s ->
  reachable framework_routes (snd (uvicorn_run access_log reqs s)).
Proof.
  revert s; induction reqs as [|rq reqs IH]; intros s R; simpl; [exact R|].
  destruct (handle_request rq s) as [o s1] eqn:E1.
  destruct (uvicorn_run access_log reqs (write_access_log access_log rq o s1))
    as [os s2] eqn:E2. simpl.
  change s2 with (snd (os, s2)). rewrite <- E2. apply IH.
  apply reach_output.
  change s1 with (snd (o, s1)). rewrite <- E1. now apply reach_request.
Qed.

Lemma read_whole file :
  read_failure file = None -> UploadFile_read file (-1) = Ok (contents file).
Proof. unfold UploadFile_read. now intros ->. Qed.

Lemma run_endpoint_returns (h : M Server PyVal) s v :
  fst (h s) = Ok v -> fst (run_endpoint h s) = Replied (json_response v).
Proof.
  unfold run_endpoint. destruct (h s) as [[v'|e] s']; simpl; congruence.
Qed.

Lemma handle_transcription s rq file :
  reachable framework_routes s ->
  framework_claims framework_routes
                   (lit "POST") (lit "/v1/audio/transcriptions") = false ->
  posts_file rq file ->
  handle_request rq s = run_endpoint (transcribe_audio file) s.
Proof.
  intros R Hf (Hm & Hp & Hfile). unfold handle_request.
  now rewrite (route_transcribe_audio rq R Hm Hp Hf), Hfile.
Qed.

Lemma transcription_reply s rq file segs :
  reachable framework_routes s ->
  framework_claims framework_routes
                   (lit "POST") (lit "/v1/audio/transcriptions") = false ->
  posts_file rq file ->
  transcribes_to s file segs ->
  fst (handle_request rq s)
  = Replied (json_response
               (PyDict [(lit "text",
                         PyStr (join (lit " ") (map Segment_text segs)))])).
Proof.
  intros R Hf Hp (Hr & info & l' & Ht).
  rewrite (handle_transcription R Hf Hp).
  apply run_endpoint_returns.
  eapply transcribe_audio_ok;
    [apply read_whole; exact Hr|exact Ht|apply list_comprehension_of_list].
Qed.

Lemma request_calls_transcription s rq file :
  reachable framework_routes s ->
  framework_claims framework_routes
                   (lit "POST") (lit "/v1/audio/transcriptions") = false ->
  posts_file rq file ->
  read_failure file = None ->
  request_calls rq s
  = [Call_read file (-1);
     Call_transcribe (model (globals s)) (io_BytesIO (contents file))
                     5 (lit "es")].
Proof.
  intros R Hf (Hm & Hp & Hfile) Hr. unfold request_calls.
  now rewrite (route_transcribe_audio rq R Hm Hp Hf), Hfile, (read_whole _ Hr).
Qed.

Lemma new_calls_request rq s :
  new_calls s (snd (handle_request rq s)) = request_calls rq s.
Proof.
  unfold new_calls. rewrite handle_request_calls. apply skipn_length_app.
Qed.

Lemma filter_framework_routes :
  filter (fun r => script_endpoint (endpoint r))
         (routes (FastAPI_new framework_routes)) = [].
Proof.
  unfold FastAPI_new; cbn [routes].
  induction framework_routes as [|[[m p] name] l IH]; simpl; auto.
Qed.

(** *** The statements about the two endpoints *)

(** C1 (as amended): for a POST to /v1/audio/transcriptions whose upload is
    read and for which [model.transcribe] returns the segments [segs], the
    endpoint answers 200 with the JSON object whose only member, ["text"],
    is the texts of the segments, in order, joined by one space. *)
Theorem transcription_text_joined_by_spaces s rq file segs :
  reachable framework_routes s ->
  framework_claims framework_routes
                   (lit "POST") (lit "/v1/audio/transcriptions") = false ->
  posts_file rq file ->
  transcribes_to s file segs ->
  fst (handle_request rq s)
  = Replied {| status_code := 200;
               body := JObject
                         [(lit "text",
                           JString (join (lit " ")
                                         (map Segment_text segs)))] |}.
Proof.
  intros R Hf Hp Ht. rewrite (transcription_reply R Hf Hp Ht). reflexivity.
Qed.

(** C2: in every reachable state, a GET of /health is answered 200 with the
    JSON object [{"status": "ok", "model": "base"}], and the state is left
    as it was. *)
Theorem health_always_ok s rq :
  reachable framework_routes s ->
  framework_claims framework_routes (lit "GET") (lit "/health") = false ->
  method rq = lit "GET" ->
  path rq = lit "/health" ->
  handle_request rq s
  = (Replied {| status_code := 200;
                body := JObject [(lit "status", JString (lit "ok"));
                                 (lit "model", JString (lit "base"))] |},
     s).
Proof.
  intros R Hf Hm Hp. unfold handle_request.
  rewrite (route_health rq R Hm Hp Hf).
  unfold run_endpoint. rewrite health_run.
  rewrite (inv_size (reachable_invariant R)). reflexivity.
Qed.

(** C3: in every reachable state the trace of calls starts with the
    construction [WhisperModel("base", device="cpu", compute_type="int8")]
    and holds no other construction; the global [model] is what a
    construction with these arguments returned; every [transcribe] call
    made so far was made on that global; and a further request neither
    constructs a model nor rebinds the global. *)
Theorem model_loaded_once s :
  reachable framework_routes s ->
  hd_error (calls (env s))
  = Some (Call_WhisperModel (lit "base") (lit "cpu") (lit "int8")) /\
  model_loads (calls (env s)) = [(lit "base", lit "cpu", lit "int8")] /\
  (exists l l',
      WhisperModel_init (lit "base") (lit "cpu") (lit "int8") l
      = (Ok (model (globals s)), l')) /\
  Forall (fun c => fst (fst (fst c)) = model (globals s))
         (transcribe_calls (calls (env s))) /\
  forall rq,
    model_loads (new_calls s (snd (handle_request rq s))) = [] /\
    model (globals (snd (handle_request rq s))) = model (globals s).
Proof.
  intros R. destruct (reachable_invariant R).
  repeat split; auto.
  - rewrite new_calls_request. apply request_calls_loads.
  - now rewrite handle_request_globals.
Qed.

(** C4: the ["text"] of a transcription reply is the join of the texts of
    all segments [model.transcribe] returned, in their order; two requests
    (whatever their files, other fields and states) whose segments have the
    same texts get the same reply. *)
Theorem text_from_segments_only s1 s2 rq1 rq2 file1 file2 segs1 segs2 :
  reachable framework_routes s1 ->
  reachable framework_routes s2 ->
  framework_claims framework_routes
                   (lit "POST") (lit "/v1/audio/transcriptions") = false ->
  posts_file rq1 file1 ->
  posts_file rq2 file2 ->
  transcribes_to s1 file1 segs1 ->
  transcribes_to s2 file2 segs2 ->
  text_of (fst (handle_request rq1 s1))
  = Some (join (lit " ") (map Segment_text segs1)) /\
  (map Segment_text segs1 = map Segment_text segs2 ->
   fst (handle_request rq1 s1) = fst (handle_request rq2 s2)).
Proof.
  intros R1 R2 Hf Hp1 Hp2 Ht1 Ht2.
  rewrite (transcription_reply R1 Hf Hp1 Ht1).
  rewrite (transcription_reply R2 Hf Hp2 Ht2).
  split; [reflexivity|]. now intros ->.
Qed.

(** C5 (as amended): the routing table of a reachable state is that of a
    fresh application followed by the two routes of the script, GET /health
    and POST /v1/audio/transcriptions, in this order; these two are all the
    routes that lead to a function of the script. *)
Theorem exactly_two_routes s :
  reachable framework_routes s ->
  routes (app (globals s))
  = routes (FastAPI_new framework_routes)
    ++ [{| route_method := lit "GET"; route_path := lit "/health";
           endpoint := ep_health |};
        {| route_method := lit "POST";
           route_path := lit "/v1/audio/transcriptions";
           endpoint := ep_transcribe_audio |}] /\
  filter (fun r => script_endpoint (endpoint r)) (routes (app (globals s)))
  = [{| route_method := lit "GET"; route_path := lit "/health";
        endpoint := ep_health |};
     {| route_method := lit "POST";
        route_path := lit "/v1/audio/transcriptions";
        endpoint := ep_transcribe_audio |}].
Proof.
  intros R. rewrite (inv_routes (reachable_invariant R)).
  split; [reflexivity|].
  rewrite filter_app, filter_framework_routes. reflexivity.
Qed.

(** C6: whatever the request and its outcome, the globals of the module
    ([app] with its routes, [MODEL_SIZE], [model]) are after it what they
    were before it; the same holds after any sequence of requests. *)
Theorem requests_leave_globals_unchanged :
  (forall rq s, globals (snd (handle_request rq s)) = globals s) /\
  (forall reqs s, globals (snd (uvicorn_run access_log reqs s)) = globals s).
Proof.
  split; [apply handle_request_globals|apply uvicorn_run_globals].
Qed.


(** C8 (as amended): when the [try] block raises an exception [e] that is
    an instance of [Exception], the handler returns the pair
    [({"error": str(e)}, 500)] and raises nothing. *)
Theorem Exception_caught_and_returned s file e :
  is_Exception e = true ->
  try_block_raises s file e ->
  fst (transcribe_audio file s)
  = Ok (PyTuple [PyDict [(lit "error", PyStr (exc_str e))]; PyInt 500]).
Proof.
  intros He [Hr|[(b & l' & Hr & Ht)|(b & g & info & l' & Hr & Ht & Hl)]].
  - rewrite (transcribe_audio_read_raises _ _ Hr), He. reflexivity.
  - rewrite (transcribe_audio_transcribe_raises _ _ Hr Ht), He. reflexivity.
  - rewrite (transcribe_audio_segments_raise _ _ Hr Ht Hl), He. reflexivity.
Qed.

(** C9: two POSTs to /v1/audio/transcriptions of one server, the second
    after the first and any requests in between have been served, whose
    uploads are read and have the same bytes, call [transcribe] once each and with the same arguments: the
    global [model], these bytes, [beam_size=5], [language="es"], whatever
    the file names and the other form fields. *)
Theorem same_bytes_same_arguments s1 rq1 rq2 file1 file2 between :
  let s2 := snd (uvicorn_run access_log (rq1 :: between) s1) in
  reachable framework_routes s1 ->
  framework_claims framework_routes
                   (lit "POST") (lit "/v1/audio/transcriptions") = false ->
  posts_file rq1 file1 ->
  posts_file rq2 file2 ->
  read_failure file1 = None ->
  read_failure file2 = None ->
  contents file1 = contents file2 ->
  transcribe_calls (new_calls s1 (snd (handle_request rq1 s1)))
  = [(model (globals s1), io_BytesIO (contents file1), 5%Z, lit "es")] /\
  transcribe_calls (new_calls s2 (snd (handle_request rq2 s2)))
  = transcribe_calls (new_calls s1 (snd (handle_request rq1 s1))).
Proof.
  intros s2 R1 Hf Hp1 Hp2 Hr1 Hr2 Hc.
  assert (R2 : reachable framework_routes s2).
  { now apply uvicorn_run_reachable. }
  assert (G : globals s2 = globals s1).
  { unfold s2. now rewrite uvicorn_run_globals. }
  rewrite !new_calls_request.
  rewrite (request_calls_transcription R1 Hf Hp1 Hr1).
  rewrite (request_calls_transcription R2 Hf Hp2 Hr2).
  rewrite G, Hc. split; reflexivity.
Qed.

End Properties.

(** ** Further facts about the transcription route *)

Section Replies.

Context {FW : FasterWhisper}.
Variable framework_routes : list (pystr * pystr * pystr).

(** X13: a POST to /v1/audio/transcriptions that carries no upload does not
    reach the handler: nothing is read, the model is not called, nothing is
    printed, the state is as it was. *)
Lemma transcription_requires_file s rq :
  reachable framework_routes s ->
  framework_claims framework_routes
                   (lit "POST") (lit "/v1/audio/transcriptions") = false ->
  method rq = lit "POST" ->
  path rq = lit "/v1/audio/transcriptions" ->
  form_file rq = None ->
  handle_request rq s = (ByFramework, s).
Proof.
  intros R Hf Hm Hp Hn. unfold handle_request.
  now rewrite (route_transcribe_audio rq R Hm Hp Hf), Hn.
Qed.

(** X3: the pair the handler returns on an error is encoded like any other
    return value: the reply to a request whose [try] block raises an
    [Exception] has status 200, and its body is the two-element array
    [[{"error": str(e)}, 500]]. *)
Lemma error_pair_reply s rq file e :
  reachable framework_routes s ->
  framework_claims framework_routes
                   (lit "POST") (lit "/v1/audio/transcriptions") = false ->
  posts_file rq file ->
  is_Exception e = true ->
  try_block_raises s file e ->
  fst (handle_request rq s)
  = Replied {| status_code := 200;
               body := JArray [JObject [(lit "error", JString (exc_str e))];
                               JNumber 500] |}.
Proof.
  intros R Hf Hp He [Hr|[(b & l' & Hr & Ht)|(b & g & info & l' & Hr & Ht & Hl)]];
    rewrite (handle_transcription R Hf Hp);
    apply (@run_endpoint_returns _ _ s (error_pair e)).
  - rewrite (transcribe_audio_read_raises _ _ Hr), He. reflexivity.
  - rewrite (transcribe_audio_transcribe_raises _ _ Hr Ht), He. reflexivity.
  - rewrite (transcribe_audio_segments_raise _ _ Hr Ht Hl), He. reflexivity.
Qed.

End Replies.

(** ** What else the script does and does not do *)

Section Beyond.

Context {FW : FasterWhisper}.
Variable framework_routes : list (pystr * pystr * pystr).
Variable access_log : Request -> Outcome -> list pystr.

(** The handler ends in one of two ways: with the text, or in its
    [except] clause. *)
Lemma transcribe_audio_cases file s :
  (exists t,
      fst (transcribe_audio file s) = Ok (PyDict [(lit "text", PyStr t)])) \/
  (exists e,
      fst (transcribe_audio file s)
      = if is_Exception e then Ok (error_pair e) else Raised e).
Proof.
  destruct (UploadFile_read file (-1)) as [b|e] eqn:Hr.
  - destruct (WhisperModel_transcribe (model (globals s)) (io_BytesIO b)
                                      5 (lit "es") (lib (env s)))
      as [[[g info]|e] l'] eqn:Ht.
    + destruct (list_comprehension Segment_text g) as [texts|e] eqn:Hl.
      * left. eexists. eapply transcribe_audio_ok; eassumption.
      * right. exists e. eapply transcribe_audio_segments_raise; eassumption.
    + right. exists e. eapply transcribe_audio_transcribe_raises; eassumption.
  - right. exists e. now apply transcribe_audio_read_raises.
Qed.

Lemma run_endpoint_escapes (h : M Server PyVal) s e :
  fst (run_endpoint h s) = Escaped e -> fst (h s) = Raised e.
Proof.
  unfold run_endpoint. destruct (h s) as [[v|e'] s']; simpl; congruence.
Qed.

Lemma run_endpoint_replies (h : M Server PyVal) s r :
  fst (run_endpoint h s) = Replied r ->
  exists v, fst (h s) = Ok v /\ r = json_response v.
Proof.
  unfold run_endpoint. destruct (h s) as [[v|e'] s']; simpl;
    [|discriminate].
  intros H; injection H as <-. now exists v.
Qed.

(** X1: an exception that the [try] block raises (in the read, in the call
    of [transcribe] or while the segments are consumed) leaves the handler
    exactly when it is not an instance of [Exception]. *)
Theorem try_block_exception_escapes_iff s file e :
  try_block_raises s file e ->
  (fst (transcribe_audio file s) = Raised e <-> is_Exception e = false).
Proof.
  intros [Hr|[(b & l' & Hr & Ht)|(b & g & info & l' & Hr & Ht & Hl)]].
  - rewrite (transcribe_audio_read_raises _ s Hr).
    destruct (is_Exception e); split; congruence.
  - rewrite (transcribe_audio_transcribe_raises _ _ Hr Ht).
    destruct (is_Exception e); split; congruence.
  - rewrite (transcribe_audio_segments_raise _ _ Hr Ht Hl).
    destruct (is_Exception e); split; congruence.
Qed.

(** X2: every reply that comes from a handler of the script has status
    200, and its body is one of three: the health object, an object with
    the one member ["text"], or the array [[{"error": msg}, 500]] for an
    [Exception] whose [str] is [msg]. *)
Theorem reply_shapes rq s r :
  fst (handle_request rq s) = Replied r ->
  status_code r = 200%Z /\
  (body r = JObject [(lit "status", JString (lit "ok"));
                     (lit "model", JString (MODEL_SIZE (globals s)))] \/
   (exists t, body r = JObject [(lit "text", JString t)]) \/
   (exists e, is_Exception e = true /\
              body r = JArray [JObject [(lit "error", JString (exc_str e))];
                               JNumber 500])).
Proof.
  unfold handle_request.
  destruct (find_route (app (globals s)) rq) as [[name| |]|];
    try discriminate.
  - intros H. injection H as <-. split; [reflexivity|]. now left.
  - destruct (form_file rq) as [file|]; [|discriminate].
    intros H. apply run_endpoint_replies in H as (v & Hv & ->).
    split; [reflexivity|]. right.
    destruct (transcribe_audio_cases file s) as [[t Ht]|[e He]].
    + left. exists t. rewrite Ht in Hv. now injection Hv as <-.
    + right. exists e. rewrite He in Hv.
      destruct (is_Exception e); [|discriminate].
      split; [reflexivity|]. now injection Hv as <-.
Qed.

(** X4: when reading the upload raises, whatever the exception, the request
    makes no [transcribe] call. *)
Theorem failed_read_skips_model rq s file e :
  form_file rq = Some file ->
  UploadFile_read file (-1) = Raised e ->
  transcribe_calls (new_calls s (snd (handle_request rq s))) = [].
Proof.
  intros Hf Hr. rewrite new_calls_request. unfold request_calls.
  destruct (find_route (app (globals s)) rq) as [[name| |]|];
    try reflexivity.
  now rewrite Hf, Hr.
Qed.

(** X5: in every reachable state, every [transcribe] call made since the
    start was made with [beam_size=5] and [language="es"], on a stream
    positioned at its beginning. *)
Theorem every_transcribe_call_fixed s :
  reachable framework_routes s ->
  Forall (fun c => snd (fst c) = 5%Z /\ snd c = lit "es" /\
                   position (snd (fst (fst c))) = 0)
         (transcribe_calls (calls (env s))).
Proof.
  induction 1 as [l g e1 Hi|s e2 R IH Hb|s rq R IH|s out R IH];
    [| | |exact IH].
  - destruct (@module_init_inv _ _ _ _ _ Hi) as (l' & _ & _ & _ & Hc & _).
    cbn [globals env]. rewrite Hc. constructor.
  - destruct (banner_env (globals s) (env s)) as [_ Hc].
    rewrite Hb in Hc. cbn [snd] in Hc. cbn [globals env]. now rewrite Hc.
  - rewrite handle_request_calls, transcribe_calls_app.
    apply Forall_app. split; [exact IH|].
    unfold request_calls.
    destruct (find_route (app (globals s)) rq) as [[name| |]|];
      try constructor.
    destruct (form_file rq) as [file|]; [|constructor].
    destruct (UploadFile_read file (-1)); simpl; repeat constructor.
Qed.

Lemma framework_route_endpoint (f : Route -> bool) r :
  find f (routes (FastAPI_new framework_routes)) = Some r ->
  exists name, endpoint r = ep_framework name.
Proof.
  unfold FastAPI_new; cbn [routes].
  induction framework_routes as [|[[m p] name] l IH]; simpl; [discriminate|].
  destruct (f _); [|exact IH].
  intros H; injection H as <-. now exists name.
Qed.

Lemma find_app_some {A} (f : A -> bool) (l1 l2 : list A) x :
  find f l1 = Some x -> find f (l1 ++ l2) = Some x.
Proof.
  induction l1 as [|a l1 IH]; simpl; [discriminate|].
  destruct (f a); auto.
Qed.

(** X6: a request that neither route of the script takes (another method,
    another path, a trailing slash; the router does take a path followed by
    one newline) runs no handler of the script: the application leaves
    standard output, the library and the globals as they were. *)
Theorem other_requests_run_no_handler s rq :
  reachable framework_routes s ->
  targets (lit "GET") (lit "/health") rq = false ->
  targets (lit "POST") (lit "/v1/audio/transcriptions") rq = false ->
  handle_request rq s = (ByFramework, s).
Proof.
  intros R Hh Ht. unfold handle_request, find_route.
  rewrite (inv_routes (reachable_invariant R)).
  destruct (find (route_matches rq) (routes (FastAPI_new framework_routes)))
    as [r|] eqn:E.
  - rewrite (find_app_some _ _ _ E).
    destruct (framework_route_endpoint _ E) as [name ->]. reflexivity.
  - rewrite (find_app_none _ _ _ E).
    unfold script_routes. cbn [find].
    change (route_matches rq {| route_method := lit "GET";
                                route_path := lit "/health";
                                endpoint := ep_health |})
      with (targets (lit "GET") (lit "/health") rq).
    change (route_matches rq {| route_method := lit "POST";
                                route_path := lit "/v1/audio/transcriptions";
                                endpoint := ep_transcribe_audio |})
      with (targets (lit "POST") (lit "/v1/audio/transcriptions") rq).
    now rewrite Hh, Ht.
Qed.

(** X7: when the construction of the model raises, the program stops with
    that exception whatever requests would follow; the two lines announcing
    the load have been printed, the line announcing success has not. *)
Theorem model_load_failure_stops_start l e l' reqs :
  WhisperModel_init (lit "base") (lit "cpu") (lit "int8") l = (Raised e, l') ->
  main framework_routes access_log reqs l = Raised e /\
  stdout (snd (module_init framework_routes (fresh l)))
  = [[128260%N] ++ lit " Cargando modelo Whisper 'base'...";
     lit "   (La primera vez puede tardar mientras descarga el modelo)"].
Proof.
  intros H. unfold main, module_init, new_WhisperModel, print, bind, modify,
    log_call, fresh.
  cbn [stdout lib calls]. rewrite H. split; reflexivity.
Qed.

Lemma module_init_middleware e0 g e1 :
  module_init framework_routes e0 = (Ok g, e1) ->
  user_middleware (app g)
  = [{| allow_origins := [lit "*"]; allow_credentials := true;
        allow_methods := [lit "*"]; allow_headers := [lit "*"] |}].
Proof.
  unfold module_init, new_WhisperModel, print, bind, modify, ret, log_call.
  cbn [stdout lib calls].
  destruct (WhisperModel_init (lit "base") (lit "cpu") (lit "int8") (lib e0))
    as [[m|e] l']; intros H; inversion H; subst; clear H.
  reflexivity.
Qed.

(** X8: in every reachable state the application has exactly one
    middleware, the CORS one that allows every origin, method and header,
    with credentials. *)
Theorem cors_allows_everything s :
  reachable framework_routes s ->
  user_middleware (app (globals s))
  = [{| allow_origins := [lit "*"]; allow_credentials := true;
        allow_methods := [lit "*"]; allow_headers := [lit "*"] |}].
Proof.
  induction 1 as [l g e1 Hi|s e2 R IH Hb|s rq R IH|s out R IH];
    cbn [globals].
  - exact (module_init_middleware _ Hi).
  - exact IH.
  - now rewrite handle_request_globals.
  - exact IH.
Qed.

Lemma run_endpoint_fst (h : M Server PyVal) s :
  fst (run_endpoint h s)
  = match fst (h s) with
    | Ok v => Replied (json_response v)
    | Raised e => Escaped e
    end.
Proof. unfold run_endpoint. now destruct (h s) as [[v|e] s']. Qed.

Lemma transcribe_audio_fst_eq file s s' :
  stateless_results ->
  globals s = globals s' ->
  fst (transcribe_audio file s) = fst (transcribe_audio file s').
Proof.
  intros Hst Hg.
  destruct (UploadFile_read file (-1)) as [b|e] eqn:Hr.
  - pose proof (Hst (model (globals s)) (io_BytesIO b) 5%Z (lit "es")
                    (lib (env s)) (lib (env s'))) as H.
    destruct (WhisperModel_transcribe (model (globals s)) (io_BytesIO b)
                                      5 (lit "es") (lib (env s)))
      as [r l1] eqn:H1.
    destruct (WhisperModel_transcribe (model (globals s)) (io_BytesIO b)
                                      5 (lit "es") (lib (env s')))
      as [r' l2] eqn:H2.
    cbn [fst] in H. subst r'. rewrite Hg in H2.
    destruct r as [[g info]|e].
    + destruct (list_comprehension Segment_text g) as [texts|e] eqn:Hl.
      * rewrite (transcribe_audio_ok _ _ Hr H1 Hl).
        now rewrite (transcribe_audio_ok _ _ Hr H2 Hl).
      * rewrite (transcribe_audio_segments_raise _ _ Hr H1 Hl).
        now rewrite (transcribe_audio_segments_raise _ _ Hr H2 Hl).
    + rewrite (transcribe_audio_transcribe_raises _ _ Hr H1).
      now rewrite (transcribe_audio_transcribe_raises _ _ Hr H2).
  - rewrite (transcribe_audio_read_raises _ s Hr).
    now rewrite (transcribe_audio_read_raises _ s' Hr).
Qed.

(** X9: the script keeps nothing between requests.  With a library whose
    [transcribe] results do not depend on its own state, the outcome of a
    request is the same whatever requests were handled before it. *)
Theorem outcome_independent_of_history rq reqs s :
  stateless_results ->
  fst (handle_request rq (snd (uvicorn_run access_log reqs s)))
  = fst (handle_request rq s).
Proof.
  intros Hst.
  assert (Hg : globals (snd (uvicorn_run access_log reqs s)) = globals s)
    by apply uvicorn_run_globals.
  revert Hg. generalize (snd (uvicorn_run access_log reqs s)). intros s' Hg.
  unfold handle_request. rewrite Hg.
  destruct (find_route (app (globals s)) rq) as [[name| |]|];
    try reflexivity.
  - unfold run_endpoint. rewrite !health_run. cbn [fst]. now rewrite Hg.
  - destruct (form_file rq) as [file|]; [|reflexivity].
    rewrite !run_endpoint_fst.
    now rewrite (@transcribe_audio_fst_eq file s' s Hst Hg).
Qed.

Lemma asks_health rq :
  asks (lit "GET") (lit "/health") rq = true ->
  method rq = lit "GET" /\ path rq = lit "/health".
Proof.
  unfold asks. intros H. apply andb_true_iff in H as [Hp Hm].
  apply str_eqb_eq in Hp, Hm. now split.
Qed.

Lemma health_request_state s rq :
  reachable framework_routes s ->
  framework_claims framework_routes (lit "GET") (lit "/health") = false ->
  asks (lit "GET") (lit "/health") rq = true ->
  snd (handle_request rq s) = s.
Proof.
  intros R Hf Ht. destruct (asks_health _ Ht) as [Hm Hp].
  unfold handle_request. now rewrite (route_health rq R Hm Hp Hf).
Qed.

(** X10: apart from its line in the access log, a health check leaves no
    trace.  Taking the GETs of /health out of any sequence of requests
    gives the state (standard output, library, calls) that the whole
    sequence gives when the server writes no access log for them, and the
    same outcomes for the other requests. *)
Theorem health_checks_leave_no_trace reqs s :
  reachable framework_routes s ->
  framework_claims framework_routes (lit "GET") (lit "/health") = false ->
  let health_check := asks (lit "GET") (lit "/health") in
  let others := filter (fun rq => negb (health_check rq)) reqs in
  let quiet := access_log_without access_log health_check in
  snd (uvicorn_run access_log others s) = snd (uvicorn_run quiet reqs s) /\
  fst (uvicorn_run access_log others s)
  = outcomes_without health_check reqs (fst (uvicorn_run quiet reqs s)).
Proof.
  intros R Hf. cbv zeta. revert s R.
  induction reqs as [|rq reqs IH]; intros s R; [now split|].
  cbn [filter uvicorn_run].
  destruct (handle_request rq s) as [o s1] eqn:E1.
  assert (R1 : reachable framework_routes s1).
  { change s1 with (snd (o, s1)). rewrite <- E1. now apply reach_request. }
  unfold outcomes_without.
  destruct (asks (lit "GET") (lit "/health") rq) eqn:Ht; cbn [negb].
  - assert (s1 = s).
    { change s1 with (snd (o, s1)). rewrite <- E1.
      now apply health_request_state. }
    subst s1.
    assert (W : write_access_log
                  (access_log_without access_log
                     (asks (lit "GET") (lit "/health"))) rq o s = s).
    { unfold write_access_log, access_log_without. rewrite Ht.
      destruct s as [g [out l cs]]; cbn. now rewrite List.app_nil_r. }
    rewrite W. destruct (IH s R) as [IH1 IH2].
    destruct (uvicorn_run _ reqs s) as [os s2].
    cbn [fst snd combine filter]. rewrite Ht. cbn [negb].
    now split.
  - assert (W : write_access_log
                  (access_log_without access_log
                     (asks (lit "GET") (lit "/health"))) rq o s1
                = write_access_log access_log rq o s1).
    { unfold write_access_log, access_log_without. now rewrite Ht. }
    rewrite W. cbn [uvicorn_run]. rewrite E1.
    destruct (IH (write_access_log access_log rq o s1)
                 (reach_output _ R1)) as [IH1 IH2].
    unfold outcomes_without in IH2.
    destruct (uvicorn_run access_log (filter _ reqs) _) as [os' s2'].
    destruct (uvicorn_run _ reqs _) as [os s2].
    cbn [fst snd combine filter map] in *. rewrite Ht. cbn [negb map snd].
    subst. now split.
Qed.

Lemma join_length (sep : pystr) (parts : list pystr) :
  List.length (join sep parts)
  = list_sum (map (@List.length codepoint) parts)
    + List.length sep * (List.length parts - 1).
Proof.
  induction parts as [|p rest IH]; [cbn; lia|].
  destruct rest as [|q rest].
  - cbn. lia.
  - change (join sep (p :: q :: rest)) with (p ++ sep ++ join sep (q :: rest)).
    rewrite !length_app, IH.
    cbn [map list_sum fold_right List.length Nat.sub].
    rewrite !Nat.sub_0_r, Nat.mul_succ_r. lia.
Qed.

(** X11: the text of a transcription reply has as many code points as the
    texts of the segments together, plus one per gap between two
    segments: nothing of a segment is dropped and nothing but the
    separating spaces is added. *)
Theorem reply_text_length s rq file segs :
  reachable framework_routes s ->
  framework_claims framework_routes
                   (lit "POST") (lit "/v1/audio/transcriptions") = false ->
  posts_file rq file ->
  transcribes_to s file segs ->
  exists t,
    text_of (fst (handle_request rq s)) = Some t /\
    List.length t
    = list_sum (map (fun g => List.length (Segment_text g)) segs)
      + (List.length segs - 1).
Proof.
  intros R Hf Hp Ht. rewrite (transcription_reply R Hf Hp Ht).
  eexists. split; [reflexivity|].
  rewrite join_length, map_map, length_map. cbn. lia.
Qed.

(** X12: a transcription that succeeds prints exactly three lines, and the
    last, which previews the text, shows at most 50 code points of it: it
    is 20 code points longer than the shown part. *)
Theorem transcript_preview_bounded file s b g info l' texts :
  UploadFile_read file (-1) = Ok b ->
  WhisperModel_transcribe (model (globals s)) (io_BytesIO b) 5 (lit "es")
                          (lib (env s)) = (Ok (g, info), l') ->
  list_comprehension Segment_text g = Ok texts ->
  exists size_line preview,
    stdout (env (snd (transcribe_audio file s)))
    = stdout (env s)
      ++ [size_line; [128260%N] ++ lit " Transcribiendo..."; preview] /\
    List.length preview
    = 20 + Nat.min 50 (List.length (join (lit " ") texts)).
Proof.
  intros Hr Ht Hl.
  unfold transcribe_audio, try_except_Exception, in_env, await_read,
    transcribe, print, from_result, log_call, bind, ret, gets, modify.
  cbn [stdout lib calls globals env]. rewrite Hr.
  cbn [stdout lib calls globals env]. rewrite Ht.
  cbn [stdout lib calls globals env fst snd]. rewrite Hl.
  cbn [stdout lib calls globals env fst snd].
  eexists. eexists. split.
  - rewrite <- !List.app_assoc. reflexivity.
  - unfold slice_to. rewrite !length_app, length_firstn.
    set (n := Nat.min 50 _).
    change (1 + (12 + (1 + (3 + (n + 3)))) = 20 + n). lia.
Qed.

End Beyond.

(** ** Concrete runs *)

(** C1, counterexample: the library returns the segments "hola" and
    "mundo"; the reply's text is "hola mundo", which is not their
    concatenation "holamundo". *)
Lemma transcription_text_not_concatenation :
  exists s,
    main (FW := hola_mundo) default_routes uvicorn_access [] 0 = Ok ([], s) /\
    transcribes_to s (wav [x52; x49]) [lit "hola"; lit "mundo"] /\
    text_of (fst (handle_request
                    (post_transcription (Some (wav [x52; x49])) []) s))
    = Some (lit "hola mundo") /\
    lit "hola mundo"
    <> List.concat (map (Segment_text (FasterWhisper := hola_mundo))
                   [lit "hola"; lit "mundo"]).
Proof.
  eexists. split; [vm_compute; reflexivity|].
  split; [split; [reflexivity|exists tt; eexists; vm_compute; reflexivity]|].
  split; [vm_compute; reflexivity|].
  vm_compute. discriminate.
Qed.

(** C5, counterexample: behind the routes FastAPI installs by default the
    started application has ten routes, not the two of the script alone,
    and a GET of /docs is routed to an endpoint of the framework. *)
Lemma more_than_two_routes :
  exists s,
    main (FW := hola_mundo) default_routes uvicorn_access [] 0
    = Ok ([], s) /\
    List.length (routes (app (globals s))) = 10 /\
    routes (app (globals s)) <> script_routes /\
    find_route (app (globals s))
               {| method := lit "GET"; path := lit "/docs";
                  form_file := None; form_fields := [] |}
    = Some (ep_framework (lit "swagger_ui_html")).
Proof.
  eexists. split; [vm_compute; reflexivity|].
  split; [vm_compute; reflexivity|].
  split; [|vm_compute; reflexivity].
  intros H. apply (f_equal (@List.length Route)) in H.
  vm_compute in H. discriminate.
Qed.

(** The router takes /health followed by a newline for /health. *)
Example health_with_newline :
  exists s,
    main (FW := hola_mundo) default_routes uvicorn_access [] 0
    = Ok ([], s) /\
    fst (handle_request {| method := lit "GET";
                           path := lit "/health" ++ [10%N];
                           form_file := None; form_fields := [] |} s)
    = Replied {| status_code := 200;
                 body := JObject [(lit "status", JString (lit "ok"));
                                  (lit "model", JString (lit "base"))] |}.
Proof.
  eexists. split; vm_compute; reflexivity.
Qed.

(** The script started with the scripted library behind FastAPI's default
    routes is a reachable state. *)
Lemma started_reachable (FW : FasterWhisper) (l : lib_state) s :
  main default_routes uvicorn_access [] l = Ok ([], s) -> reachable default_routes s.
Proof. apply main_reachable. Qed.

Lemma transcription_text_joined_by_spaces_witness :
  exists s,
    main (FW := hola_mundo) default_routes uvicorn_access [] 0 = Ok ([], s) /\
    fst (handle_request
           (post_transcription (Some (wav [x52; x49]))
                               [(lit "language", lit "en")]) s)
    = Replied {| status_code := 200;
                 body := JObject [(lit "text",
                                   JString (lit "hola mundo"))] |}.
Proof.
  eexists. split; [vm_compute; reflexivity|].
  apply (@transcription_text_joined_by_spaces hola_mundo default_routes
           _ _ (wav [x52; x49]) [lit "hola"; lit "mundo"]).
  - apply (@started_reachable hola_mundo 0). vm_compute; reflexivity.
  - reflexivity.
  - repeat split.
  - split; [reflexivity|exists tt; eexists; vm_compute; reflexivity].
Defined.

Lemma health_always_ok_witness :
  exists s,
    main (FW := hola_mundo) default_routes uvicorn_access
         [post_transcription (Some (wav [x52; x49])) []] 0
    = Ok ([Replied {| status_code := 200;
                      body := JObject [(lit "text",
                                        JString (lit "hola mundo"))] |}], s) /\
    handle_request get_health s
    = (Replied {| status_code := 200;
                  body := JObject [(lit "status", JString (lit "ok"));
                                   (lit "model", JString (lit "base"))] |},
       s).
Proof.
  eexists. split; [vm_compute; reflexivity|].
  apply (@health_always_ok hola_mundo default_routes).
  - eapply (@main_reachable hola_mundo default_routes uvicorn_access
              [post_transcription (Some (wav [x52; x49])) []] 0).
    vm_compute; reflexivity.
  - reflexivity.
  - reflexivity.
  - reflexivity.
Defined.

Lemma model_loaded_once_witness :
  exists s,
    main (FW := hola_mundo) default_routes uvicorn_access
         [post_transcription (Some (wav [x52; x49])) []; get_health] 0
    = Ok ([Replied {| status_code := 200;
                      body := JObject [(lit "text",
                                        JString (lit "hola mundo"))] |};
           Replied {| status_code := 200;
                      body := JObject [(lit "status", JString (lit "ok"));
                                       (lit "model", JString (lit "base"))] |}],
          s) /\
    model_loads (calls (env s)) = [(lit "base", lit "cpu", lit "int8")] /\
    transcribe_calls (calls (env s))
    = [(model (globals s), io_BytesIO [x52; x49], 5%Z, lit "es")].
Proof.
  eexists. split; [vm_compute; reflexivity|].
  split; [|vm_compute; reflexivity].
  apply (@model_loaded_once hola_mundo default_routes).
  eapply (@main_reachable hola_mundo default_routes uvicorn_access
            [post_transcription (Some (wav [x52; x49])) []; get_health] 0).
  vm_compute; reflexivity.
Defined.

Lemma text_from_segments_only_witness :
  exists s1 s2,
    main (FW := hola_mundo) default_routes uvicorn_access [] 0 = Ok ([], s1) /\
    s2 = snd (handle_request get_health s1) /\
    fst (handle_request
           (post_transcription (Some (wav [x52; x49])) []) s1)
    = fst (handle_request
             (post_transcription (Some (wav [x00]))
                                 [(lit "model", lit "whisper-1")]) s2).
Proof.
  eexists. eexists. split; [vm_compute; reflexivity|].
  split; [reflexivity|].
  refine (proj2 (@text_from_segments_only hola_mundo default_routes
                   _ _ _ _ (wav [x52; x49]) (wav [x00])
                   [lit "hola"; lit "mundo"] [lit "hola"; lit "mundo"]
                   _ _ _ _ _ _ _) eq_refl).
  - apply (@started_reachable hola_mundo 0). vm_compute; reflexivity.
  - apply reach_request.
    apply (@started_reachable hola_mundo 0). vm_compute; reflexivity.
  - reflexivity.
  - repeat split.
  - repeat split.
  - split; [reflexivity|exists tt; eexists; vm_compute; reflexivity].
  - split; [reflexivity|exists tt; eexists; vm_compute; reflexivity].
Defined.

Lemma exactly_two_routes_witness :
  exists s,
    main (FW := hola_mundo) default_routes uvicorn_access [] 0 = Ok ([], s) /\
    filter (fun r => script_endpoint (endpoint r)) (routes (app (globals s)))
    = [{| route_method := lit "GET"; route_path := lit "/health";
          endpoint := ep_health |};
       {| route_method := lit "POST";
          route_path := lit "/v1/audio/transcriptions";
          endpoint := ep_transcribe_audio |}].
Proof.
  eexists. split; [vm_compute; reflexivity|].
  apply (@exactly_two_routes hola_mundo default_routes).
  apply (@started_reachable hola_mundo 0). vm_compute; reflexivity.
Defined.


Lemma Exception_caught_and_returned_witness :
  exists s,
    main (FW := hola_boom) default_routes uvicorn_access [] 0 = Ok ([], s) /\
    fst (transcribe_audio (wav [x52; x49]) s)
    = Ok (PyTuple [PyDict [(lit "error", PyStr (lit "boom"))]; PyInt 500]).
Proof.
  eexists. split; [vm_compute; reflexivity|].
  apply (@Exception_caught_and_returned hola_boom _ _ boom);
    [reflexivity|].
  right; right.
  exists [x52; x49], (GenYield (lit "hola") (GenRaise boom)), tt.
  eexists. repeat split; vm_compute; reflexivity.
Defined.

(** C8, counterexample: the read of the upload is cancelled;
    [asyncio.CancelledError] is not an [Exception], so the handler does not
    return the pair but lets it through. *)
Lemma BaseException_escapes_handler :
  exists s,
    main (FW := hola_mundo) default_routes uvicorn_access [] 0 = Ok ([], s) /\
    try_block_raises s interrupted cancelled /\
    fst (transcribe_audio interrupted s) = Raised cancelled /\
    fst (transcribe_audio interrupted s)
    <> Ok (PyTuple [PyDict [(lit "error", PyStr (exc_str cancelled))];
                    PyInt 500]) /\
    fst (handle_request (post_transcription (Some interrupted) []) s)
    = Escaped cancelled.
Proof.
  eexists. split; [vm_compute; reflexivity|].
  split; [left; reflexivity|].
  split; [vm_compute; reflexivity|].
  split; [vm_compute; discriminate|vm_compute; reflexivity].
Qed.

Lemma same_bytes_same_arguments_witness :
  exists s1,
    main (FW := hola_mundo) default_routes uvicorn_access [] 0 = Ok ([], s1) /\
    let rq1 := post_transcription (Some (wav [x52; x49])) [] in
    let rq2 :=
      post_transcription
        (Some {| filename := lit "b.mp3"; content_type := lit "audio/mpeg";
                 contents := [x52; x49]; read_failure := None |})
        [(lit "model", lit "whisper-1"); (lit "language", lit "en")] in
    let s2 := snd (uvicorn_run uvicorn_access [rq1; get_health] s1) in
    transcribe_calls (new_calls s2 (snd (handle_request rq2 s2)))
    = transcribe_calls (new_calls s1 (snd (handle_request rq1 s1))).
Proof.
  eexists. split; [vm_compute; reflexivity|].
  intros rq1 rq2 s2.
  refine (proj2 (@same_bytes_same_arguments hola_mundo default_routes
                   uvicorn_access _ rq1 rq2 _ _ [get_health]
                   _ _ _ _ _ _ _)).
  - apply (@started_reachable hola_mundo 0). vm_compute; reflexivity.
  - reflexivity.
  - repeat split.
  - repeat split.
  - reflexivity.
  - reflexivity.
  - reflexivity.
Defined.

(** *** Runs for the further facts *)

Lemma try_block_exception_escapes_iff_witness :
  exists s,
    main (FW := hola_mundo) default_routes uvicorn_access [] 0
    = Ok ([], s) /\
    (fst (transcribe_audio interrupted s) = Raised cancelled
     <-> is_Exception cancelled = false).
Proof.
  eexists. split; [vm_compute; reflexivity|].
  apply (@try_block_exception_escapes_iff hola_mundo).
  left. reflexivity.
Defined.

Lemma reply_shapes_witness :
  exists s r,
    main (FW := hola_boom) default_routes uvicorn_access [] 0 = Ok ([], s) /\
    fst (handle_request (post_transcription (Some (wav [x52; x49])) []) s)
    = Replied r /\
    status_code r = 200%Z.
Proof.
  eexists. eexists. split; [vm_compute; reflexivity|].
  match goal with
  | |- fst (handle_request ?rq ?s) = Replied ?r /\ _ =>
      assert (H : fst (handle_request rq s) = Replied r)
        by (vm_compute; reflexivity);
      exact (conj H (proj1 (@reply_shapes hola_boom rq s _ H)))
  end.
Defined.

Lemma error_pair_reply_witness :
  exists s,
    main (FW := hola_boom) default_routes uvicorn_access [] 0 = Ok ([], s) /\
    fst (handle_request (post_transcription (Some (wav [x52; x49])) []) s)
    = Replied {| status_code := 200;
                 body := JArray [JObject [(lit "error",
                                           JString (lit "boom"))];
                                 JNumber 500] |}.
Proof.
  eexists. split; [vm_compute; reflexivity|].
  apply (@error_pair_reply hola_boom default_routes _ _
           (wav [x52; x49]) boom).
  - apply (@started_reachable hola_boom 0). vm_compute; reflexivity.
  - reflexivity.
  - repeat split.
  - reflexivity.
  - right; right.
    exists [x52; x49], (GenYield (lit "hola") (GenRaise boom)), tt.
    eexists. repeat split; vm_compute; reflexivity.
Defined.

Lemma failed_read_skips_model_witness :
  exists s,
    main (FW := hola_mundo) default_routes uvicorn_access [] 0 = Ok ([], s) /\
    transcribe_calls
      (new_calls s (snd (handle_request
                           (post_transcription (Some interrupted) []) s)))
    = [].
Proof.
  eexists. split; [vm_compute; reflexivity|].
  apply (@failed_read_skips_model hola_mundo _ _ interrupted cancelled);
    reflexivity.
Defined.

Lemma every_transcribe_call_fixed_witness :
  exists os s,
    main (FW := hola_mundo) default_routes uvicorn_access
         [post_transcription (Some (wav [x52; x49])) [(lit "language", lit "en")];
          post_transcription (Some (wav [])) []] 0
    = Ok (os, s) /\
    List.length (transcribe_calls (calls (env s))) = 2 /\
    Forall (fun c => snd (fst c) = 5%Z /\ snd c = lit "es" /\
                     position (snd (fst (fst c))) = 0)
           (transcribe_calls (calls (env s))).
Proof.
  eexists. eexists. split; [vm_compute; reflexivity|].
  split; [vm_compute; reflexivity|].
  apply (@every_transcribe_call_fixed hola_mundo default_routes).
  eapply (@main_reachable hola_mundo default_routes uvicorn_access
            [post_transcription (Some (wav [x52; x49]))
                                [(lit "language", lit "en")];
             post_transcription (Some (wav [])) []] 0).
  vm_compute; reflexivity.
Defined.

Lemma other_requests_run_no_handler_witness :
  exists s,
    main (FW := hola_mundo) default_routes uvicorn_access [] 0 = Ok ([], s) /\
    handle_request {| method := lit "GET";
                      path := lit "/v1/audio/transcriptions";
                      form_file := Some (wav [x52; x49]);
                      form_fields := [] |} s
    = (ByFramework, s) /\
    handle_request {| method := lit "GET"; path := lit "/health/";
                      form_file := None; form_fields := [] |} s
    = (ByFramework, s).
Proof.
  eexists. split; [vm_compute; reflexivity|].
  split; apply (@other_requests_run_no_handler hola_mundo default_routes);
    try reflexivity;
    apply (@started_reachable hola_mundo 0); vm_compute; reflexivity.
Defined.

Lemma model_load_failure_stops_start_witness :
  main (FW := no_model) default_routes uvicorn_access
       [get_health; post_transcription (Some (wav [x52; x49])) []] 0
  = Raised boom.
Proof.
  apply (@model_load_failure_stops_start no_model default_routes
           uvicorn_access 0 boom 1).
  reflexivity.
Defined.

Lemma cors_allows_everything_witness :
  exists os s,
    main (FW := hola_mundo) default_routes uvicorn_access
         [post_transcription (Some (wav [x52; x49])) []] 0 = Ok (os, s) /\
    List.length (user_middleware (app (globals s))) = 1.
Proof.
  eexists. eexists. split; [vm_compute; reflexivity|].
  rewrite (@cors_allows_everything hola_mundo default_routes); [reflexivity|].
  eapply (@main_reachable hola_mundo default_routes uvicorn_access
            [post_transcription (Some (wav [x52; x49])) []] 0).
  vm_compute; reflexivity.
Defined.

Lemma outcome_independent_of_history_witness :
  exists s,
    main (FW := hola_mundo) default_routes uvicorn_access [] 0 = Ok ([], s) /\
    fst (handle_request
           (post_transcription (Some (wav [x52; x49])) [])
           (snd (uvicorn_run uvicorn_access
                   [post_transcription (Some interrupted) []; get_health;
                    post_transcription (Some (wav [x00])) []] s)))
    = fst (handle_request (post_transcription (Some (wav [x52; x49])) []) s).
Proof.
  eexists. split; [vm_compute; reflexivity|].
  apply (@outcome_independent_of_history hola_mundo).
  intros self audio beam_size language l1 l2. reflexivity.
Defined.

Lemma health_checks_leave_no_trace_witness :
  exists s,
    main (FW := hola_mundo) default_routes uvicorn_access [] 0
    = Ok ([], s) /\
    snd (uvicorn_run uvicorn_access
           [post_transcription (Some (wav [x52; x49])) []] s)
    = snd (uvicorn_run
             (access_log_without uvicorn_access
                                 (asks (lit "GET") (lit "/health")))
             [get_health; post_transcription (Some (wav [x52; x49])) [];
              get_health] s).
Proof.
  eexists. split; [vm_compute; reflexivity|].
  refine (proj1 (@health_checks_leave_no_trace hola_mundo default_routes
                   uvicorn_access
                   [get_health; post_transcription (Some (wav [x52; x49])) [];
                    get_health] _ _ _)).
  - apply (@started_reachable hola_mundo 0). vm_compute; reflexivity.
  - reflexivity.
Defined.

Lemma reply_text_length_witness :
  exists s,
    main (FW := hola_mundo) default_routes uvicorn_access [] 0 = Ok ([], s) /\
    exists t,
      text_of (fst (handle_request
                      (post_transcription (Some (wav [x52; x49])) []) s))
      = Some t /\
      List.length t = 10.
Proof.
  eexists. split; [vm_compute; reflexivity|].
  apply (@reply_text_length hola_mundo default_routes _ _
           (wav [x52; x49]) [lit "hola"; lit "mundo"]).
  - apply (@started_reachable hola_mundo 0). vm_compute; reflexivity.
  - reflexivity.
  - repeat split.
  - split; [reflexivity|exists tt; eexists; vm_compute; reflexivity].
Defined.

Lemma transcript_preview_bounded_witness :
  exists s,
    main (FW := la_la) default_routes uvicorn_access [] 0 = Ok ([], s) /\
    exists size_line preview,
      stdout (env (snd (transcribe_audio (wav [x52; x49]) s)))
      = stdout (env s)
        ++ [size_line; [128260%N] ++ lit " Transcribiendo..."; preview] /\
      List.length preview = 70.
Proof.
  eexists. split; [vm_compute; reflexivity|].
  apply (@transcript_preview_bounded la_la (wav [x52; x49]) _ [x52; x49]
           (gen_of_list [str_mul (lit "la ") 20]) tt 2
           [str_mul (lit "la ") 20]);
    vm_compute; reflexivity.
Defined.

Lemma transcription_requires_file_witness :
  exists s,
    main (FW := hola_mundo) default_routes uvicorn_access [] 0 = Ok ([], s) /\
    handle_request (post_transcription None [(lit "model", lit "whisper-1")]) s
    = (ByFramework, s).
Proof.
  eexists. split; [vm_compute; reflexivity|].
  apply (@transcription_requires_file hola_mundo default_routes);
    try reflexivity.
  apply (@started_reachable hola_mundo 0). vm_compute; reflexivity.
Defined.
